(** * Training driver of the digit recogniser: [src/digit_recognizer/train.py]

    A shallow embedding of the class [Train] and the proofs of its
    orchestration properties.  The driver is sequencing code: it reads
    attributes of [self], calls collaborators and stores what they return.
    Python raises exceptions and keeps whatever was assigned before the
    raise, so every method is a function from a state to an outcome
    together with the state reached, also when the outcome is an exception. *)

From stdpp Require Import gmap strings list fin_maps.
From Stdlib Require Import ZArith.

Open Scope string_scope.
Local Set Warnings "-register-all".

(** ** Python values

    The values the driver receives as arguments and the values a parsed JSON
    document is made of.  A [dict] read from JSON has string keys. *)

Inductive pyval : Type :=
| PyNone
| PyBool (b : bool)
| PyInt (n : Z)
| PyFloat (mantissa : Z) (exponent : Z)   (* mantissa * 10 ^ exponent *)
| PyStr (s : string)
| PyList (l : list pyval)
| PyDict (d : gmap string pyval).

(** Truth value of an object in an [if] statement. *)
Definition truthy (v : pyval) : bool :=
  match v with
  | PyNone => false
  | PyBool b => b
  | PyInt n => negb (n =? 0)%Z
  | PyFloat m _ => negb (m =? 0)%Z
  | PyStr s => negb (String.eqb s "")
  | PyList l => match l with [] => false | _ => true end
  | PyDict d => negb (bool_decide (d = ∅))
  end.

(** ** Exceptions *)

Inductive exn : Type :=
| AssertionError (msg : string)
| AttributeError (attr : string)
| KeyError (key : string)
| TypeError (msg : string)
| ConfigNotFound (name directory : string)
| NotFoundError (path : string)
| CollaboratorError (msg : string).

(** [v[k]] for a string key [k]. *)
Definition subscript (v : pyval) (k : string) : exn + pyval :=
  match v with
  | PyDict d =>
      match d !! k with
      | Some x => inr x
      | None => inl (KeyError k)
      end
  | PyStr _ => inl (TypeError "string indices must be integers")
  | PyList _ => inl (TypeError "list indices must be integers or slices, not str")
  | _ => inl (TypeError "object is not subscriptable")
  end.

(** [v[k1][k2]...], evaluated left to right. *)
Fixpoint subscripts (v : pyval) (path : list string) : exn + pyval :=
  match path with
  | [] => inr v
  | k :: ks =>
      match subscript v k with
      | inl e => inl e
      | inr v' => subscripts v' ks
      end
  end.

(** The field reached by a path of keys is present: every key of the path
    is found, each in the mapping the previous one led to. *)
Fixpoint has_field (v : pyval) (path : list string) : bool :=
  match path with
  | [] => true
  | k :: ks =>
      match v with
      | PyDict d =>
          match d !! k with
          | Some v' => has_field v' ks
          | None => false
          end
      | _ => false
      end
  end.

(** The document is a nested mapping along a path: each key of the path is
    looked up in a mapping, as far as the keys are found. *)
Fixpoint nested_mapping (v : pyval) (path : list string) : bool :=
  match path with
  | [] => true
  | k :: ks =>
      match v with
      | PyDict d =>
          match d !! k with
          | Some v' => nested_mapping v' ks
          | None => true
          end
      | _ => false
      end
  end.

Definition learning_rate_path : list string :=
  ["model"; "optimizer"; "learning_rate"].

(** ** What the collaborators own

    The dataset component, the model component and the deep-learning
    framework are not part of this file.  Their data is kept abstract:
    [Params] the trainable parameters of a network, [Arch] what a [Model]
    object holds besides them, [DatasetObj] the state of a [Dataset] object,
    [Graph] the functional model returned by [build_graph] and [Optimizer]
    the object returned by [tf.keras.optimizers.Adam]. *)

Class Domain : Type := {
  Params : Type;
  Arch : Type;
  DatasetObj : Type;
  Graph : Type;
  Optimizer : Type
}.

Section Driver.
Context `{Dom : Domain}.

(** A [Model] object: a [self.model] and the [tf.train.Checkpoint] built
    from it name the same object, so model objects live in a store and are
    referred to by address. *)
Record ModelObj : Type := {
  m_arch : Arch;
  m_params : Params
}.

Definition loc : Type := nat.

(** [tf.train.Checkpoint(model=...)]: the object whose parameters a restore
    writes. *)
Record Checkpoint : Type := {
  ck_model : loc
}.

(** [tf.train.CheckpointManager(checkpoint, directory=..., max_to_keep=...)]. *)
Record CheckpointManager : Type := {
  mgr_checkpoint : Checkpoint;
  mgr_directory : string;
  mgr_max_to_keep : Z
}.

(** ** The world outside the process

    [cwd] is what [os.getcwd()] returns.  [config_store] is the
    configuration store seen through [load_json_file]: the parsed document
    for a directory and a file name.  [ckpt_index] lists, for a checkpoint
    directory, the paths of the snapshots it retains, oldest first, and
    [ckpt_data] holds the parameters saved under a snapshot path.  [dirs]
    and [files] are the directories and the files written by the reporting
    step, [log] is the log sink. *)
Record World : Type := {
  cwd : string;
  config_store : gmap (string * string) pyval;
  ckpt_index : gmap string (list string);
  ckpt_data : gmap string Params;
  dirs : gset string;
  files : gmap string string;
  log : list string
}.

(** ** The object [self]

    Attributes other than the two assigned by [__init__] exist only once a
    method has assigned them; [None] stands for an attribute that does not
    exist, so that reading it raises [AttributeError]. *)
Record Train : Type := {
  model_version : string;
  best_validation_loss : pyval;
  home_directory_path : option string;
  model_configuration : option pyval;
  dataset : option DatasetObj;
  model : option loc;
  optimizer : option Optimizer;
  checkpoint_directory_path : option string;
  manager : option CheckpointManager;
  reports_directory_path : option string
}.

(** Calls the driver makes to its collaborators, in the order made. *)
Inductive Call : Type :=
| Call_getcwd
| Call_load_json_file (file_name directory_path : string)
| Call_Dataset (configuration : pyval)
| Call_load_data
| Call_split_dataset
| Call_shuffle_slice_dataset
| Call_Model (configuration : pyval)
| Call_Adam (learning_rate : pyval)
| Call_Checkpoint (target : loc)
| Call_CheckpointManager (directory : string) (max_to_keep : Z)
| Call_latest_checkpoint (directory : string)
| Call_restore (save_path : option string)
| Call_add_to_log (message : string)
| Call_build_graph
| Call_summary
| Call_check_directory_path_existence (directory_path : string)
| Call_plot_model (to_file : string) (show_shapes show_layer_names expand_nested : bool).

Record State : Type := {
  self : Train;
  heap : gmap loc ModelObj;
  world : World;
  calls : list Call
}.

(** ** Computations that may raise *)

Definition M (A : Type) : Type := State -> (exn + A) * State.

Definition ret {A} (a : A) : M A := fun st => (inr a, st).
Definition raise {A} (e : exn) : M A := fun st => (inl e, st).
Definition bind {A B} (m : M A) (k : A -> M B) : M B :=
  fun st =>
    match m st with
    | (inl e, st') => (inl e, st')
    | (inr a, st') => k a st'
    end.

Notation "x <- m ;; k" := (bind m (fun x => k))
  (at level 100, m at next level, right associativity).
Notation "m ;;; k" := (bind m (fun _ => k))
  (at level 100, right associativity).

Definition lift {A} (r : exn + A) : M A :=
  match r with
  | inl e => raise e
  | inr a => ret a
  end.

(** [assert c, msg] *)
Definition py_assert (c : bool) (msg : string) : M unit :=
  if c then ret tt else raise (AssertionError msg).

Definition called (c : Call) : M unit :=
  fun st => (inr tt, {| self := self st; heap := heap st; world := world st;
                        calls := calls st ++ [c] |}).

Definition get_self : M Train := fun st => (inr (self st), st).
Definition get_world : M World := fun st => (inr (world st), st).

Definition set_self (f : Train -> Train) : M unit :=
  fun st => (inr tt, {| self := f (self st); heap := heap st; world := world st;
                        calls := calls st |}).

Definition set_world (f : World -> World) : M unit :=
  fun st => (inr tt, {| self := self st; heap := heap st; world := f (world st);
                        calls := calls st |}).

(** [self.<attr>] for an attribute that may not exist yet. *)
Definition getattr {A} (name : string) (field : Train -> option A) : M A :=
  d <- get_self ;;
  match field d with
  | Some a => ret a
  | None => raise (AttributeError name)
  end.

(** Assignments [self.<attr> = v]. *)
Definition set_home_directory_path (v : string) (d : Train) : Train :=
  {| model_version := model_version d;
     best_validation_loss := best_validation_loss d;
     home_directory_path := Some v;
     model_configuration := model_configuration d;
     dataset := dataset d;
     model := model d;
     optimizer := optimizer d;
     checkpoint_directory_path := checkpoint_directory_path d;
     manager := manager d;
     reports_directory_path := reports_directory_path d |}.

Definition set_model_configuration (v : pyval) (d : Train) : Train :=
  {| model_version := model_version d;
     best_validation_loss := best_validation_loss d;
     home_directory_path := home_directory_path d;
     model_configuration := Some v;
     dataset := dataset d;
     model := model d;
     optimizer := optimizer d;
     checkpoint_directory_path := checkpoint_directory_path d;
     manager := manager d;
     reports_directory_path := reports_directory_path d |}.

Definition set_dataset (v : DatasetObj) (d : Train) : Train :=
  {| model_version := model_version d;
     best_validation_loss := best_validation_loss d;
     home_directory_path := home_directory_path d;
     model_configuration := model_configuration d;
     dataset := Some v;
     model := model d;
     optimizer := optimizer d;
     checkpoint_directory_path := checkpoint_directory_path d;
     manager := manager d;
     reports_directory_path := reports_directory_path d |}.

Definition set_model (v : loc) (d : Train) : Train :=
  {| model_version := model_version d;
     best_validation_loss := best_validation_loss d;
     home_directory_path := home_directory_path d;
     model_configuration := model_configuration d;
     dataset := dataset d;
     model := Some v;
     optimizer := optimizer d;
     checkpoint_directory_path := checkpoint_directory_path d;
     manager := manager d;
     reports_directory_path := reports_directory_path d |}.

Definition set_optimizer (v : Optimizer) (d : Train) : Train :=
  {| model_version := model_version d;
     best_validation_loss := best_validation_loss d;
     home_directory_path := home_directory_path d;
     model_configuration := model_configuration d;
     dataset := dataset d;
     model := model d;
     optimizer := Some v;
     checkpoint_directory_path := checkpoint_directory_path d;
     manager := manager d;
     reports_directory_path := reports_directory_path d |}.

Definition set_checkpoint_directory_path (v : string) (d : Train) : Train :=
  {| model_version := model_version d;
     best_validation_loss := best_validation_loss d;
     home_directory_path := home_directory_path d;
     model_configuration := model_configuration d;
     dataset := dataset d;
     model := model d;
     optimizer := optimizer d;
     checkpoint_directory_path := Some v;
     manager := manager d;
     reports_directory_path := reports_directory_path d |}.

Definition set_manager (v : CheckpointManager) (d : Train) : Train :=
  {| model_version := model_version d;
     best_validation_loss := best_validation_loss d;
     home_directory_path := home_directory_path d;
     model_configuration := model_configuration d;
     dataset := dataset d;
     model := model d;
     optimizer := optimizer d;
     checkpoint_directory_path := checkpoint_directory_path d;
     manager := Some v;
     reports_directory_path := reports_directory_path d |}.

Definition set_reports_directory_path (v : string) (d : Train) : Train :=
  {| model_version := model_version d;
     best_validation_loss := best_validation_loss d;
     home_directory_path := home_directory_path d;
     model_configuration := model_configuration d;
     dataset := dataset d;
     model := model d;
     optimizer := optimizer d;
     checkpoint_directory_path := checkpoint_directory_path d;
     manager := manager d;
     reports_directory_path := Some v |}.

(** ** Collaborators taken as parameters

    The constructors and methods of [Dataset] and [Model], the optimizer's
    constructor and the diagram renderer.  Nothing is assumed about them:
    the constructors may raise, the dataset methods read the world, change
    the dataset object and may raise after changing it. *)
Class Collaborators : Type := {
  co_Dataset : pyval -> exn + DatasetObj;
  co_load_data : DatasetObj -> World -> option exn * DatasetObj;
  co_split_dataset : DatasetObj -> World -> option exn * DatasetObj;
  co_shuffle_slice_dataset : DatasetObj -> World -> option exn * DatasetObj;
  co_Model : pyval -> exn + ModelObj;
  co_Adam : pyval -> exn + Optimizer;
  co_build_graph : ModelObj -> exn + Graph;
  co_summary : Graph -> list string;
  co_render : Graph -> bool -> bool -> bool -> string
}.

Context `{Co : Collaborators}.

(** ** Collaborators with an effect on the world *)

(** [os.getcwd()] *)
Definition getcwd : M string :=
  called Call_getcwd ;;;
  w <- get_world ;;
  ret (cwd w).

(** Modelled from the spec: [load_json_file] of [src/utils], the
    configuration store.  It resolves a file name under a directory to the
    parsed configuration and fails with [ConfigNotFound] when the store has
    no such entry. *)
Definition load_json_file (file_name directory_path : string) : M pyval :=
  called (Call_load_json_file file_name directory_path) ;;;
  w <- get_world ;;
  match config_store w !! (directory_path, file_name) with
  | Some document => ret document
  | None => raise (ConfigNotFound file_name directory_path)
  end.

Definition append_log (message : string) (w : World) : World :=
  {| cwd := cwd w; config_store := config_store w; ckpt_index := ckpt_index w;
     ckpt_data := ckpt_data w; dirs := dirs w; files := files w;
     log := log w ++ [message] |}.

(** Modelled from the spec: [add_to_log] of [src/utils], the append-only
    textual log sink. *)
Definition add_to_log (message : string) : M unit :=
  called (Call_add_to_log message) ;;;
  set_world (append_log message).

Definition make_directory (path : string) (w : World) : World :=
  {| cwd := cwd w; config_store := config_store w; ckpt_index := ckpt_index w;
     ckpt_data := ckpt_data w; dirs := {[ path ]} ∪ dirs w; files := files w;
     log := log w |}.

(** Modelled from the spec: [check_directory_path_existence] of
    [src/utils].  It ensures that the directory of the given relative path
    exists under the current working directory, creating it if necessary,
    and returns its path. *)
Definition check_directory_path_existence (directory_path : string) : M string :=
  called (Call_check_directory_path_existence directory_path) ;;;
  w <- get_world ;;
  let absolute_directory_path := cwd w ++ "/" ++ directory_path in
  set_world (make_directory absolute_directory_path) ;;;
  ret absolute_directory_path.

Definition write_file (path content : string) (w : World) : World :=
  {| cwd := cwd w; config_store := config_store w; ckpt_index := ckpt_index w;
     ckpt_data := ckpt_data w; dirs := dirs w; files := <[ path := content ]> (files w);
     log := log w |}.

(** Modelled from the spec: [tf.keras.utils.plot_model], which renders the
    structural diagram of the model to the given file. *)
Definition plot_model (g : Graph) (to_file : string)
    (show_shapes show_layer_names expand_nested : bool) : M unit :=
  called (Call_plot_model to_file show_shapes show_layer_names expand_nested) ;;;
  set_world (write_file to_file (co_render g show_shapes show_layer_names expand_nested)).

(** Modelled from the spec: [tf.train.latest_checkpoint], the path of the
    most recent snapshot of a checkpoint directory, [None] when it has
    none. *)
Definition latest_checkpoint (directory : string) : M (option string) :=
  called (Call_latest_checkpoint directory) ;;;
  w <- get_world ;;
  ret (last (default [] (ckpt_index w !! directory))).

Definition with_params (ps : Params) (m : ModelObj) : ModelObj :=
  {| m_arch := m_arch m; m_params := ps |}.

Definition set_heap (f : gmap loc ModelObj -> gmap loc ModelObj) : M unit :=
  fun st => (inr tt, {| self := self st; heap := f (heap st); world := world st;
                        calls := calls st |}).

(** Modelled from the spec: [checkpoint.restore].  With [None] it restores
    nothing and raises no error; with a snapshot path it writes the saved
    parameters into the object the checkpoint was built from. *)
Definition restore (checkpoint : Checkpoint) (save_path : option string) : M unit :=
  called (Call_restore save_path) ;;;
  match save_path with
  | None => ret tt
  | Some path =>
      w <- get_world ;;
      match ckpt_data w !! path with
      | None => raise (NotFoundError path)
      | Some ps => set_heap (alter (with_params ps) (ck_model checkpoint))
      end
  end.

(** The object at an address.  An address held by [self] or by a checkpoint
    is one [new_model] returned, so the object is there. *)
Definition deref (l : loc) : M ModelObj :=
  fun st =>
    match heap st !! l with
    | Some m => (inr m, st)
    | None => (inl (CollaboratorError "dangling reference"), st)
    end.

(** A constructor call [Model(...)] that succeeds yields a new object. *)
Definition new_model (m : ModelObj) : M loc :=
  fun st =>
    let l := fresh (dom (heap st)) in
    (inr l, {| self := self st; heap := <[ l := m ]> (heap st); world := world st;
               calls := calls st |}).

(** ** The class [Train] *)

(** [isinstance(v, str)] *)
Definition is_str (v : pyval) : bool :=
  match v with
  | PyStr _ => true
  | _ => false
  end.

(** [v == s] for a string literal [s]. *)
Definition eq_str (v : pyval) (s : string) : bool :=
  match v with
  | PyStr t => String.eqb t s
  | _ => false
  end.

(** [v in [s1, s2, ...]] for string literals. *)
Definition in_strs (v : pyval) (l : list string) : bool :=
  existsb (eq_str v) l.

(** [Train.__init__].  Assertions are taken as enabled. *)
Definition Train_init (model_version : pyval) : exn + Train :=
  match model_version with
  | PyStr s =>
      inr {| model_version := s;
             best_validation_loss := PyNone;
             home_directory_path := None;
             model_configuration := None;
             dataset := None;
             model := None;
             optimizer := None;
             checkpoint_directory_path := None;
             manager := None;
             reports_directory_path := None |}
  | _ => inl (AssertionError "Variable model_version of type 'str'.")
  end.

(** [Train.load_model_configuration] *)
Definition load_model_configuration : M unit :=
  home <- getcwd ;;
  set_self (set_home_directory_path home) ;;;
  home <- getattr "home_directory_path" home_directory_path ;;
  let model_configuration_directory_path := home ++ "/configs/models/digit_recognizer" in
  d <- get_self ;;
  configuration <- load_json_file ("v" ++ model_version d) model_configuration_directory_path ;;
  set_self (set_model_configuration configuration).

(** [self.dataset.<method>()]: the method works on the object in place. *)
Definition dataset_method (c : Call)
    (method : DatasetObj -> World -> option exn * DatasetObj) : M unit :=
  ds <- getattr "dataset" dataset ;;
  called c ;;;
  w <- get_world ;;
  set_self (set_dataset (snd (method ds w))) ;;;
  match fst (method ds w) with
  | Some e => raise e
  | None => ret tt
  end.

(** [Train.load_dataset] *)
Definition load_dataset : M unit :=
  configuration <- getattr "model_configuration" model_configuration ;;
  called (Call_Dataset configuration) ;;;
  ds <- lift (co_Dataset configuration) ;;
  set_self (set_dataset ds) ;;;
  dataset_method Call_load_data co_load_data ;;;
  dataset_method Call_split_dataset co_split_dataset ;;;
  dataset_method Call_shuffle_slice_dataset co_shuffle_slice_dataset.

Definition mode_type_message : string :=
  "Variable mode should be of type 'str'.".
Definition mode_value_message : string :=
  "Variable mode should have 'train' or 'predict' as value.".
Definition model_loaded_message : string :=
  "Finished loading model for current configuration.".

(** [Train.load_model] *)
Definition load_model (mode : pyval) : M unit :=
  py_assert (is_str mode) mode_type_message ;;;
  py_assert (in_strs mode ["train"; "predict"]) mode_value_message ;;;
  configuration <- getattr "model_configuration" model_configuration ;;
  called (Call_Model configuration) ;;;
  m <- lift (co_Model configuration) ;;
  l <- new_model m ;;
  set_self (set_model l) ;;;
  configuration <- getattr "model_configuration" model_configuration ;;
  learning_rate <- lift (subscripts configuration learning_rate_path) ;;
  called (Call_Adam learning_rate) ;;;
  o <- lift (co_Adam learning_rate) ;;
  set_self (set_optimizer o) ;;;
  home <- getattr "home_directory_path" home_directory_path ;;
  d <- get_self ;;
  set_self (set_checkpoint_directory_path
              (home ++ "/models/digit_recognizer/v" ++ model_version d ++ "/checkpoints")) ;;;
  l <- getattr "model" model ;;
  called (Call_Checkpoint l) ;;;
  let checkpoint := {| ck_model := l |} in
  directory <- getattr "checkpoint_directory_path" checkpoint_directory_path ;;
  called (Call_CheckpointManager directory 3) ;;;
  set_self (set_manager {| mgr_checkpoint := checkpoint;
                           mgr_directory := directory;
                           mgr_max_to_keep := 3 |}) ;;;
  (if eq_str mode "predict"
   then
     directory <- getattr "checkpoint_directory_path" checkpoint_directory_path ;;
     save_path <- latest_checkpoint directory ;;
     restore checkpoint save_path
   else ret tt) ;;;
  add_to_log model_loaded_message ;;;
  add_to_log "".

Definition newline : string := String (Ascii.ascii_of_nat 10) EmptyString.

Definition model_plot_path (reports_directory_path : string) : string :=
  reports_directory_path ++ "/model_plot.png".

Definition plot_saved_message (reports_directory_path : string) : string :=
  "Finished saving model plot at " ++ reports_directory_path ++ "/model_plot.png.".

(** [Train.generate_model_summary_and_plot] *)
Definition generate_model_summary_and_plot (plot : pyval) : M unit :=
  l <- getattr "model" model ;;
  m <- deref l ;;
  called Call_build_graph ;;;
  g <- lift (co_build_graph m) ;;
  called Call_summary ;;;
  let model_summary := String.concat newline (co_summary g) in
  add_to_log model_summary ;;;
  add_to_log "" ;;;
  d <- get_self ;;
  reports <- check_directory_path_existence
               ("models/digit_recognizer/v" ++ model_version d ++ "/reports") ;;
  set_self (set_reports_directory_path reports) ;;;
  if truthy plot
  then
    reports <- getattr "reports_directory_path" reports_directory_path ;;
    plot_model g (model_plot_path reports) true true true ;;;
    reports <- getattr "reports_directory_path" reports_directory_path ;;
    add_to_log (plot_saved_message reports) ;;;
    add_to_log ""
  else ret tt.

(** ** Predicates of the statements *)

(** The two attributes assigned by [__init__] are the same in both states. *)
Definition same_identity (st st' : State) : Prop :=
  model_version (self st') = model_version (self st) /\
  best_validation_loss (self st') = best_validation_loss (self st).

(** A computation that leaves them alone, whatever its outcome. *)
Definition keeps_identity {A} (m : M A) : Prop :=
  forall st, same_identity st (snd (m st)).

(** The configuration was loaded in the current working directory. *)
Definition config_loaded (st : State) (configuration : pyval) : Prop :=
  home_directory_path (self st) = Some (cwd (world st)) /\
  model_configuration (self st) = Some configuration.

Definition checkpoints_directory (home version : string) : string :=
  home ++ "/models/digit_recognizer/v" ++ version ++ "/checkpoints".

Definition reports_directory (home version : string) : string :=
  home ++ "/models/digit_recognizer/v" ++ version ++ "/reports".

Definition configs_directory (home : string) : string :=
  home ++ "/configs/models/digit_recognizer".

(** The snapshots a checkpoint directory retains, oldest first. *)
Definition snapshots (w : World) (directory : string) : list string :=
  default [] (ckpt_index w !! directory).

(** The state [load_model] builds before it looks at the mode: the new
    model object, the optimizer, the checkpoint directory and the manager. *)
Definition model_loaded (st : State) (home : string) (m : ModelObj) (o : Optimizer) : Train :=
  let l := fresh (dom (heap st)) in
  let directory := checkpoints_directory home (model_version (self st)) in
  set_manager {| mgr_checkpoint := {| ck_model := l |};
                 mgr_directory := directory;
                 mgr_max_to_keep := 3 |}
    (set_checkpoint_directory_path directory
       (set_optimizer o (set_model l (self st)))).

(** ** The methods in the order a caller runs them

    Preparing for training: configuration, dataset, model.  Preparing for
    prediction: configuration, model with the latest checkpoint. *)
Definition prepare_for_training : M unit :=
  load_model_configuration ;;;
  load_dataset ;;;
  load_model (PyStr "train").

Definition prepare_for_prediction : M unit :=
  load_model_configuration ;;;
  load_model (PyStr "predict").

End Driver.

(** ** Reference collaborators

    A small concrete choice of the collaborators, used to run the driver on
    examples: parameters are lists of integers, a model keeps the
    configuration it was built from, a dataset records the steps applied to
    it, a graph is its summary lines and an optimizer is its learning
    rate. *)

Definition ref_domain : Domain :=
  {| Params := list Z;
     Arch := pyval;
     DatasetObj := list string;
     Graph := list string;
     Optimizer := pyval |}.

Definition ref_model (configuration : pyval) (ps : list Z) : @ModelObj ref_domain :=
  @Build_ModelObj ref_domain configuration ps.

Definition ref_collaborators : @Collaborators ref_domain :=
  @Build_Collaborators ref_domain
    (fun _ => inr ([] : list string))
    (fun ds _ => (None, ((ds : list string) ++ ["load_data"])%list))
    (fun ds _ => (None, ((ds : list string) ++ ["split_dataset"])%list))
    (fun ds _ => (None, ((ds : list string) ++ ["shuffle_slice_dataset"])%list))
    (fun configuration => inr (ref_model configuration [0; 0]%Z))
    (fun learning_rate => inr (learning_rate : pyval))
    (fun _ => inr ["dense (Dense)"; "Total params: 2"])
    (fun g => (g : list string))
    (fun _ _ _ _ => "PNG").

(** Collaborators that check what they are given: the dataset needs the
    field dataset.split and its source file, the model needs the field
    model.layers, the optimizer needs a number, and the graph cannot be built
    from a model without parameters. *)
Definition strict_collaborators : @Collaborators ref_domain :=
  @Build_Collaborators ref_domain
    (fun configuration =>
       if has_field configuration ["dataset"; "split"]
       then inr ([] : list string)
       else inl (KeyError "dataset"))
    (fun ds w =>
       match @files ref_domain w !! "/work/data/train.csv" with
       | Some _ => (None, ((ds : list string) ++ ["load_data"])%list)
       | None => (Some (CollaboratorError "missing source file"), (ds : list string))
       end)
    (fun ds _ =>
       (Some (CollaboratorError "empty dataset"),
        ((ds : list string) ++ ["split_dataset (partial)"])%list))
    (fun ds _ => (None, ((ds : list string) ++ ["shuffle_slice_dataset"])%list))
    (fun configuration =>
       if has_field configuration ["model"; "layers"]
       then inr (ref_model configuration [0; 0]%Z)
       else inl (KeyError "layers"))
    (fun learning_rate =>
       match learning_rate with
       | PyFloat _ _ | PyInt _ => inr (learning_rate : pyval)
       | _ => inl (CollaboratorError "learning_rate is not a number")
       end)
    (fun m =>
       match @m_params ref_domain m with
       | [] => inl (CollaboratorError "model has no layer")
       | _ => inr ["dense (Dense)"; "Total params: 2"]
       end)
    (fun g => (g : list string))
    (fun _ _ _ _ => "PNG").

(** A configuration with a learning rate, and one without. *)
Definition ref_configuration : pyval :=
  PyDict {[ "model" :=
    PyDict {[ "optimizer" := PyDict {[ "learning_rate" := PyFloat 1 (-3) ]} ]} ]}.

Definition ref_configuration_no_rate : pyval :=
  PyDict {[ "model" := PyDict {[ "optimizer" := PyDict ∅ ]} ]}.

Definition ref_checkpoints : string := "/work/models/digit_recognizer/v1/checkpoints".

(** A world whose checkpoint directory is empty, and one that retains the
    snapshots of steps 10, 20 and 30. *)
Definition ref_world : @World ref_domain :=
  @Build_World ref_domain "/work"
    {[ ("/work/configs/models/digit_recognizer", "v1") := ref_configuration ]}
    ∅ ∅ ∅ ∅ [].

Definition ref_world_snapshots : @World ref_domain :=
  @Build_World ref_domain "/work"
    {[ ("/work/configs/models/digit_recognizer", "v1") := ref_configuration ]}
    {[ ref_checkpoints :=
         [ref_checkpoints ++ "/ckpt-10"; ref_checkpoints ++ "/ckpt-20";
          ref_checkpoints ++ "/ckpt-30"] ]}
    (<[ ref_checkpoints ++ "/ckpt-10" := [10; 10]%Z ]>
       (<[ ref_checkpoints ++ "/ckpt-20" := [20; 20]%Z ]>
          {[ ref_checkpoints ++ "/ckpt-30" := [30; 30]%Z ]}))
    ∅ ∅ [].

(** The driver of version "1" as [__init__] leaves it, and after its
    configuration was loaded. *)
Definition ref_driver : @Train ref_domain :=
  @Build_Train ref_domain "1" PyNone None None None None None None None None.

Definition ref_driver_configured (configuration : pyval) : @Train ref_domain :=
  @Build_Train ref_domain "1" PyNone (Some "/work") (Some configuration)
    None None None None None None.

(** The driver once [load_model] has stored a model object at address 0. *)
Definition ref_driver_loaded : @Train ref_domain :=
  @Build_Train ref_domain "1" PyNone (Some "/work") (Some ref_configuration)
    None (Some 0) None None None None.



Definition ref_state (d : @Train ref_domain) (w : @World ref_domain) : @State ref_domain :=
  @Build_State ref_domain d ∅ w [].

(** A configuration with the fields the checking collaborators ask for, one
    whose learning rate is a text, and one whose optimizer entry is a number
    instead of a mapping. *)
Definition ref_configuration_full : pyval :=
  PyDict (<[ "dataset" := PyDict {[ "split" := PyFloat 8 (-1) ]} ]>
         {[ "model" :=
              PyDict (<[ "layers" := PyList [PyStr "dense"] ]>
                     {[ "optimizer" := PyDict {[ "learning_rate" := PyFloat 1 (-3) ]} ]}) ]}).

Definition ref_configuration_text_rate : pyval :=
  PyDict {[ "model" :=
    PyDict (<[ "layers" := PyList [PyStr "dense"] ]>
           {[ "optimizer" := PyDict {[ "learning_rate" := PyStr "fast" ]} ]}) ]}.

Definition ref_configuration_flat : pyval :=
  PyDict {[ "model" := PyDict {[ "optimizer" := PyInt 5 ]} ]}.

(** The world with the source file of the dataset in place. *)
Definition ref_world_data : @World ref_domain :=
  @Build_World ref_domain "/work"
    {[ ("/work/configs/models/digit_recognizer", "v1") := ref_configuration_full ]}
    ∅ ∅ ∅ {[ "/work/data/train.csv" := "label,pixel0" ]} [].

(** A state whose loaded model has no parameters. *)
Definition ref_state_hollow : @State ref_domain :=
  @Build_State ref_domain ref_driver_loaded
    {[ 0 := ref_model ref_configuration [] ]} ref_world [].

(** * Properties *)

Section Properties.
Context `{Dom : Domain} `{Co : !Collaborators}.

Example subscripts_demo :
  subscripts (PyDict {[ "model" := PyDict {[ "optimizer" := PyDict {[ "learning_rate" := PyFloat 1 (-3) ]} ]} ]})
    learning_rate_path = inr (PyFloat 1 (-3)).
Proof. reflexivity. Qed.

Lemma bind_inr {A B} (m : M A) (k : A -> M B) st a st' :
  m st = (inr a, st') -> bind m k st = k a st'.
Proof. intros H. unfold bind. rewrite H. reflexivity. Qed.

Lemma bind_inl {A B} (m : M A) (k : A -> M B) st e st' :
  m st = (inl e, st') -> bind m k st = (inl e, st').
Proof. intros H. unfold bind. rewrite H. reflexivity. Qed.

Lemma getattr_some {A} name (field : Train -> option A) st a :
  field (self st) = Some a -> getattr name field st = (inr a, st).
Proof. intros H. unfold getattr, bind, get_self, ret. rewrite H. reflexivity. Qed.

Lemma getattr_none {A} name (field : Train -> option A) st :
  field (self st) = None -> getattr name field st = (inl (AttributeError name), st).
Proof. intros H. unfold getattr, bind, get_self, raise. rewrite H. reflexivity. Qed.

Lemma eq_str_true v s : eq_str v s = true <-> v = PyStr s.
Proof.
  destruct v; simpl; try (split; [discriminate | intros H; discriminate H]).
  rewrite String.eqb_eq. split; [intros -> | intros [= ->]]; reflexivity.
Qed.

Lemma in_strs_modes v :
  in_strs v ["train"; "predict"] = true <-> v = PyStr "train" \/ v = PyStr "predict".
Proof.
  unfold in_strs. simpl. rewrite !orb_true_iff, !eq_str_true.
  split; [intros [H | [H | H]] | intros [H | H]]; auto; discriminate.
Qed.

(** *** Construction *)

Lemma Train_init_inr v d :
  Train_init v = inr d -> v = PyStr (model_version d).
Proof. destruct v; simpl; intros H; inversion H; reflexivity. Qed.

(** C9: constructing the driver with the empty string as model version
    raises nothing and stores the empty string: [__init__] checks the type
    of its argument only. *)
Theorem init_accepts_empty_version :
  exists d, Train_init (PyStr "") = inr d /\ model_version d = "".
Proof. eexists. split; reflexivity. Qed.

(** C7, as amended: an argument that is not a string makes [__init__] fail
    with its assertion error, and a driver that was constructed holds the
    string it was given, which may be empty. *)
Theorem init_requires_str (v : pyval) :
  (is_str v = false ->
   Train_init v = inl (AssertionError "Variable model_version of type 'str'.")) /\
  (forall d, Train_init v = inr d -> v = PyStr (model_version d)).
Proof.
  split.
  - destruct v; simpl; intros H; try reflexivity. discriminate H.
  - intros d. apply Train_init_inr.
Qed.

(** *** Arguments of [load_model] *)

(** C2: a string mode other than "train" and "predict" makes [load_model]
    fail with its assertion error before anything else runs: the driver,
    the model objects, the world (configuration store, checkpoint store,
    directories, files, log) and the calls made are what they were. *)
Theorem load_model_rejects_mode (s : string) (st : State) :
  s <> "train" -> s <> "predict" ->
  load_model (PyStr s) st = (inl (AssertionError mode_value_message), st).
Proof.
  intros Ht Hp. unfold load_model.
  assert (Hin : in_strs (PyStr s) ["train"; "predict"] = false).
  { apply not_true_is_false. rewrite in_strs_modes.
    intros [[= H] | [= H]]; [apply Ht | apply Hp]; exact H. }
  simpl is_str. rewrite Hin. reflexivity.
Qed.

(** X1: a mode that is not a string is rejected by the first assertion,
    before anything else runs. *)
Lemma load_model_rejects_type (v : pyval) (st : State) :
  is_str v = false ->
  load_model v st = (inl (AssertionError mode_type_message), st).
Proof. intros H. unfold load_model. rewrite H. reflexivity. Qed.

(** *** Calling out of order *)

(** C8: on a driver without the attribute [model_configuration],
    [load_dataset] and [load_model] with a valid mode raise [AttributeError]
    for it, and without the attribute [model],
    [generate_model_summary_and_plot] raises [AttributeError] for [model];
    each fails at its first statement, with nothing called and nothing
    changed. *)
Theorem out_of_order_attribute_error (st : State) :
  (model_configuration (self st) = None ->
   load_dataset st = (inl (AttributeError "model_configuration"), st) /\
   forall mode, mode = "train" \/ mode = "predict" ->
     load_model (PyStr mode) st = (inl (AttributeError "model_configuration"), st)) /\
  (model (self st) = None ->
   forall plot,
     generate_model_summary_and_plot plot st = (inl (AttributeError "model"), st)).
Proof.
  split.
  - intros H. split.
    + unfold load_dataset. apply bind_inl. apply getattr_none. exact H.
    + intros mode Hm. unfold load_model.
      assert (Hin : in_strs (PyStr mode) ["train"; "predict"] = true).
      { apply in_strs_modes. destruct Hm as [-> | ->]; auto. }
      simpl is_str. rewrite Hin.
      unfold py_assert. rewrite (bind_inr _ _ st tt st) by reflexivity.
      rewrite (bind_inr _ _ st tt st) by reflexivity.
      apply bind_inl. apply getattr_none. exact H.
  - intros H plot. unfold generate_model_summary_and_plot.
    apply bind_inl. apply getattr_none. exact H.
Qed.

(** *** Loading the configuration *)

(** C4: when the configuration store holds a document for the name
    "v" + version under <cwd>/configs/models/digit_recognizer,
    [load_model_configuration] asks for the working directory, asks the
    store for exactly that name and directory and raises nothing.
    Afterwards [self.model_configuration] is the document the store holds
    and [self.home_directory_path] is the working directory; every other
    attribute, the model objects and the world are as before. *)
Theorem load_model_configuration_loads (st : State) (document : pyval) :
  config_store (world st)
    !! (cwd (world st) ++ "/configs/models/digit_recognizer",
        "v" ++ model_version (self st)) = Some document ->
  exists st',
    load_model_configuration st = (inr tt, st') /\
    model_configuration (self st') = Some document /\
    home_directory_path (self st') = Some (cwd (world st)) /\
    model_version (self st') = model_version (self st) /\
    best_validation_loss (self st') = best_validation_loss (self st) /\
    dataset (self st') = dataset (self st) /\
    model (self st') = model (self st) /\
    optimizer (self st') = optimizer (self st) /\
    checkpoint_directory_path (self st') = checkpoint_directory_path (self st) /\
    manager (self st') = manager (self st) /\
    reports_directory_path (self st') = reports_directory_path (self st) /\
    heap st' = heap st /\
    world st' = world st /\
    calls st' =
      (calls st ++
       [Call_getcwd;
        Call_load_json_file ("v" ++ model_version (self st))
          (cwd (world st) ++ "/configs/models/digit_recognizer")])%list.
Proof.
  intros H. destruct st as [d h w c]. simpl in *. eexists. split.
  - unfold load_model_configuration, load_json_file, getcwd, getattr, bind, called,
      get_self, get_world, set_self, ret, raise. simpl.
    rewrite H. simpl. reflexivity.
  - simpl. rewrite <- app_assoc. repeat split; reflexivity.
Qed.

(** X2: without an entry in the configuration store the method fails with
    [ConfigNotFound]; [self.home_directory_path] was assigned before the
    failure and stays, [self.model_configuration] is not assigned. *)
Theorem load_model_configuration_not_found (st : State) :
  config_store (world st)
    !! (configs_directory (cwd (world st)), "v" ++ model_version (self st)) = None ->
  load_model_configuration st =
    (inl (ConfigNotFound ("v" ++ model_version (self st))
            (configs_directory (cwd (world st)))),
     {| self := set_home_directory_path (cwd (world st)) (self st);
        heap := heap st;
        world := world st;
        calls := calls st ++
                 [Call_getcwd;
                  Call_load_json_file ("v" ++ model_version (self st))
                    (configs_directory (cwd (world st)))] |}).
Proof.
  intros H. destruct st as [d h w c]. simpl in *.
  unfold load_model_configuration, load_json_file, getcwd, getattr, bind, called,
    get_self, get_world, set_self, ret, raise. simpl.
  unfold configs_directory in H. rewrite H. simpl.
  rewrite <- app_assoc. reflexivity.
Qed.

(** *** Loading the dataset *)

(** X3: when the configuration is loaded and neither the constructor nor a
    method of [Dataset] raises, [load_dataset] builds the dataset from the
    configuration and applies [load_data], [split_dataset] and
    [shuffle_slice_dataset] to it, in this order, and touches nothing else. *)
Theorem load_dataset_runs (st : State) configuration (ds0 : DatasetObj) :
  model_configuration (self st) = Some configuration ->
  co_Dataset configuration = inr ds0 ->
  let r1 := co_load_data ds0 (world st) in
  let r2 := co_split_dataset (snd r1) (world st) in
  let r3 := co_shuffle_slice_dataset (snd r2) (world st) in
  fst r1 = None -> fst r2 = None -> fst r3 = None ->
  load_dataset st =
    (inr tt,
     {| self := set_dataset (snd r3) (set_dataset (snd r2) (set_dataset (snd r1)
                  (set_dataset ds0 (self st))));
        heap := heap st;
        world := world st;
        calls := calls st ++
                 [Call_Dataset configuration; Call_load_data; Call_split_dataset;
                  Call_shuffle_slice_dataset] |}).
Proof.
  intros Hc Hd r1 r2 r3 H1 H2 H3. subst r1 r2 r3.
  destruct st as [d h w c]. simpl in *.
  unfold load_dataset, dataset_method, getattr, lift, bind, called, get_self, get_world,
    set_self, ret, raise. simpl.
  rewrite Hc. simpl. rewrite Hd. simpl. rewrite H1. simpl. rewrite H2. simpl.
  rewrite H3. simpl. repeat rewrite <- app_assoc. reflexivity.
Qed.

(** X5: when [load_data] raises, [load_dataset] raises the same exception
    and ends there: [split_dataset] and [shuffle_slice_dataset] are not
    called and the world is as before. *)
Theorem load_dataset_propagates (st : State) configuration (ds0 : DatasetObj) (e : exn) :
  model_configuration (self st) = Some configuration ->
  co_Dataset configuration = inr ds0 ->
  fst (co_load_data ds0 (world st)) = Some e ->
  exists st',
    load_dataset st = (inl e, st') /\
    world st' = world st /\
    calls st' = (calls st ++ [Call_Dataset configuration; Call_load_data])%list.
Proof.
  intros Hc Hd He. destruct st as [d h w c]. simpl in *. eexists. split.
  - unfold load_dataset, dataset_method, getattr, lift, bind, called, get_self,
      get_world, set_self, ret, raise. simpl.
    rewrite Hc. simpl. rewrite Hd. simpl. rewrite He. simpl. reflexivity.
  - simpl. split; [reflexivity |]. rewrite <- app_assoc. reflexivity.
Qed.

(** *** Loading the model *)

Ltac run_driver :=
  unfold load_model, latest_checkpoint, restore, add_to_log, new_model, deref, getattr,
    py_assert, lift, bind, called, get_self, get_world, set_self, set_world, set_heap,
    ret, raise; simpl.

Lemma load_model_train_run (st : State) home configuration learning_rate m o :
  home_directory_path (self st) = Some home ->
  model_configuration (self st) = Some configuration ->
  co_Model configuration = inr m ->
  subscripts configuration learning_rate_path = inr learning_rate ->
  co_Adam learning_rate = inr o ->
  load_model (PyStr "train") st =
    (inr tt,
     {| self := model_loaded st home m o;
        heap := <[ fresh (dom (heap st)) := m ]> (heap st);
        world := append_log "" (append_log model_loaded_message (world st));
        calls := calls st ++
                 [Call_Model configuration;
                  Call_Adam learning_rate;
                  Call_Checkpoint (fresh (dom (heap st)));
                  Call_CheckpointManager
                    (checkpoints_directory home (model_version (self st))) 3;
                  Call_add_to_log model_loaded_message;
                  Call_add_to_log ""] |}).
Proof.
  intros Hh Hc Hm Hlr Ho. destruct st as [d h w c]. simpl in *.
  run_driver. rewrite Hc, Hm. simpl. rewrite Hc, Hlr. simpl. rewrite Ho. simpl.
  rewrite Hh. simpl.
  repeat rewrite <- app_assoc. reflexivity.
Qed.

Lemma load_model_predict_run (st : State) home configuration learning_rate m o :
  home_directory_path (self st) = Some home ->
  model_configuration (self st) = Some configuration ->
  co_Model configuration = inr m ->
  subscripts configuration learning_rate_path = inr learning_rate ->
  co_Adam learning_rate = inr o ->
  let l := fresh (dom (heap st)) in
  let directory := checkpoints_directory home (model_version (self st)) in
  let latest := last (snapshots (world st) directory) in
  forall restored : ModelObj,
  match latest with
  | None => restored = m
  | Some path => exists ps, ckpt_data (world st) !! path = Some ps /\
                            restored = with_params ps m
  end ->
  load_model (PyStr "predict") st =
    (inr tt,
     {| self := model_loaded st home m o;
        heap := <[ l := restored ]> (heap st);
        world := append_log "" (append_log model_loaded_message (world st));
        calls := calls st ++
                 [Call_Model configuration;
                  Call_Adam learning_rate;
                  Call_Checkpoint l;
                  Call_CheckpointManager directory 3;
                  Call_latest_checkpoint directory;
                  Call_restore latest;
                  Call_add_to_log model_loaded_message;
                  Call_add_to_log ""] |}).
Proof.
  intros Hh Hc Hm Hlr Ho l directory latest restored Hr.
  subst l directory latest. unfold snapshots in *.
  destruct st as [d h w c]. simpl in *.
  run_driver. rewrite Hc, Hm. simpl. rewrite Hc, Hlr. simpl. rewrite Ho. simpl.
  rewrite Hh. simpl. unfold checkpoints_directory in *. simpl in *.
  destruct (last (default [] (ckpt_index w !! _))) as [path |].
  - destruct Hr as (ps & Hps & ->). simpl. rewrite Hps. simpl.
    rewrite alter_insert_eq. repeat rewrite <- app_assoc. reflexivity.
  - subst restored. simpl. repeat rewrite <- app_assoc. reflexivity.
Qed.

(** C3: on a driver whose configuration was loaded, when the model and the
    optimizer can be built, [load_model("train")] raises nothing and leaves
    in [self.manager] a checkpoint manager for the new model object, bound
    to <cwd>/models/digit_recognizer/v<version>/checkpoints with
    [max_to_keep = 3].  The calls it makes are the six listed: neither
    [latest_checkpoint] nor [restore] is among them, and the new model
    object keeps the parameters its constructor gave it. *)
Theorem load_model_train_manager (st : State) configuration learning_rate m o :
  config_loaded st configuration ->
  co_Model configuration = inr m ->
  subscripts configuration learning_rate_path = inr learning_rate ->
  co_Adam learning_rate = inr o ->
  let l := fresh (dom (heap st)) in
  let directory :=
    cwd (world st) ++ "/models/digit_recognizer/v" ++ model_version (self st)
      ++ "/checkpoints" in
  exists st',
    load_model (PyStr "train") st = (inr tt, st') /\
    manager (self st') =
      Some {| mgr_checkpoint := {| ck_model := l |};
              mgr_directory := directory;
              mgr_max_to_keep := 3 |} /\
    model (self st') = Some l /\
    heap st' !! l = Some m /\
    ckpt_index (world st') = ckpt_index (world st) /\
    ckpt_data (world st') = ckpt_data (world st) /\
    calls st' = (calls st ++
                 [Call_Model configuration;
                  Call_Adam learning_rate;
                  Call_Checkpoint l;
                  Call_CheckpointManager directory 3;
                  Call_add_to_log model_loaded_message;
                  Call_add_to_log ""])%list.
Proof.
  intros [Hh Hc] Hm Hlr Ho l directory. eexists. split.
  - apply (load_model_train_run st _ _ _ _ _ Hh Hc Hm Hlr Ho).
  - simpl. repeat split; try reflexivity. apply lookup_insert_eq.
Qed.

(** C1: on a driver whose configuration was loaded, when the model and the
    optimizer can be built, [load_model("predict")] raises nothing.  When
    the checkpoint directory retains no snapshot the model object keeps the
    parameters its constructor gave it; when it retains snapshots (three at
    most or more) the parameters are those saved under the most recent
    one. *)
Theorem load_model_predict_restores (st : State) configuration learning_rate m o :
  config_loaded st configuration ->
  co_Model configuration = inr m ->
  subscripts configuration learning_rate_path = inr learning_rate ->
  co_Adam learning_rate = inr o ->
  let l := fresh (dom (heap st)) in
  let directory :=
    cwd (world st) ++ "/models/digit_recognizer/v" ++ model_version (self st)
      ++ "/checkpoints" in
  (snapshots (world st) directory = [] ->
   exists st',
     load_model (PyStr "predict") st = (inr tt, st') /\
     model (self st') = Some l /\
     heap st' !! l = Some m) /\
  (forall (older : list string) (path : string) (ps : Params),
     snapshots (world st) directory = (older ++ [path])%list ->
     ckpt_data (world st) !! path = Some ps ->
     exists st',
       load_model (PyStr "predict") st = (inr tt, st') /\
       model (self st') = Some l /\
       heap st' !! l = Some {| m_arch := m_arch m; m_params := ps |}).
Proof.
  intros [Hh Hc] Hm Hlr Ho l directory. split.
  - intros Hs. eexists. split.
    + apply (load_model_predict_run st _ _ _ _ _ Hh Hc Hm Hlr Ho m).
      fold (checkpoints_directory (cwd (world st)) (model_version (self st))) in Hs.
      unfold checkpoints_directory in *. simpl in *.
      fold directory. rewrite Hs. reflexivity.
    + simpl. split; [reflexivity | apply lookup_insert_eq].
  - intros older path ps Hs Hps. eexists. split.
    + apply (load_model_predict_run st _ _ _ _ _ Hh Hc Hm Hlr Ho (with_params ps m)).
      unfold checkpoints_directory in *. simpl in *.
      fold directory. rewrite Hs, last_snoc. exists ps. split; [exact Hps | reflexivity].
    + simpl. split; [reflexivity | apply lookup_insert_eq].
Qed.

(** *** A configuration without the learning rate *)

Lemma subscripts_absent (v : pyval) (path : list string) :
  nested_mapping v path = true ->
  has_field v path = false ->
  exists k, k ∈ path /\ subscripts v path = inl (KeyError k).
Proof.
  revert v. induction path as [| k ks IH]; intros v Hn Ha.
  - discriminate Ha.
  - destruct v; try discriminate Hn. simpl in *.
    destruct (d !! k) as [v' |] eqn:Hk.
    + destruct (IH v' Hn Ha) as (k' & Hin & Hs).
      exists k'. split; [right; exact Hin | exact Hs].
    + exists k. split; [left | reflexivity].
Qed.

(** Where a value on the way is not a mapping the subscript raises
    [TypeError] instead. *)
Lemma subscripts_not_mapping (v : pyval) (path : list string) :
  nested_mapping v path = false ->
  exists msg, subscripts v path = inl (TypeError msg).
Proof.
  revert v. induction path as [| k ks IH]; intros v Hn.
  - discriminate Hn.
  - destruct v; simpl in *; try (eexists; reflexivity).
    destruct (d !! k) as [v' |]; [apply IH; exact Hn | discriminate Hn].
Qed.

(** C6, as amended: with a valid mode, on a configuration that is a nested
    mapping along model, optimizer, learning_rate in which that field is
    absent, and once the model itself was built, [load_model] fails with
    [KeyError] for the key that is missing.  It fails while it evaluates the
    argument of the optimizer's constructor: the constructor is not called,
    [self.optimizer] is not assigned and the world is untouched. *)
Theorem load_model_missing_learning_rate (st : State) configuration m (mode : string) :
  model_configuration (self st) = Some configuration ->
  mode = "train" \/ mode = "predict" ->
  co_Model configuration = inr m ->
  nested_mapping configuration learning_rate_path = true ->
  has_field configuration learning_rate_path = false ->
  exists k st',
    k ∈ learning_rate_path /\
    load_model (PyStr mode) st = (inl (KeyError k), st') /\
    optimizer (self st') = optimizer (self st) /\
    manager (self st') = manager (self st) /\
    world st' = world st /\
    calls st' = (calls st ++ [Call_Model configuration])%list.
Proof.
  intros Hc Hmode Hm Hn Ha.
  destruct (subscripts_absent _ _ Hn Ha) as (k & Hin & Hs).
  exists k. destruct st as [d h w c]. simpl in *.
  assert (Hv : in_strs (PyStr mode) ["train"; "predict"] = true).
  { apply in_strs_modes. destruct Hmode as [-> | ->]; auto. }
  eexists. split; [exact Hin |]. split.
  - run_driver. unfold in_strs in Hv. simpl in Hv. rewrite Hv. simpl.
    rewrite Hc, Hm. simpl. rewrite Hc. simpl.
    unfold learning_rate_path in Hs. simpl in Hs. rewrite Hs. reflexivity.
  - simpl. repeat split; reflexivity.
Qed.

(** *** Summary and plot *)

Ltac run_report :=
  unfold generate_model_summary_and_plot, plot_model, check_directory_path_existence,
    add_to_log, deref, getattr, lift, bind, called, get_self, get_world, set_self,
    set_world, ret, raise; simpl.


(** *** The attributes assigned by [__init__] *)

Create HintDb frame.

Lemma same_identity_refl st : same_identity st st.
Proof. split; reflexivity. Qed.

Lemma same_identity_trans st1 st2 st3 :
  same_identity st1 st2 -> same_identity st2 st3 -> same_identity st1 st3.
Proof. intros [H1 H2] [H3 H4]. split; congruence. Qed.

Lemma keeps_ret {A} (a : A) : keeps_identity (ret a).
Proof. intros st. apply same_identity_refl. Qed.

Lemma keeps_raise {A} (e : exn) : keeps_identity (@raise _ A e).
Proof. intros st. apply same_identity_refl. Qed.

Lemma keeps_bind {A B} (m : M A) (k : A -> M B) :
  keeps_identity m -> (forall a, keeps_identity (k a)) -> keeps_identity (bind m k).
Proof.
  intros Hm Hk st. unfold bind. specialize (Hm st).
  destruct (m st) as [[e | a] st1]; simpl in *.
  - exact Hm.
  - eapply same_identity_trans; [exact Hm | apply Hk].
Qed.

Lemma keeps_lift {A} (r : exn + A) : keeps_identity (lift r).
Proof. destruct r; intros st; apply same_identity_refl. Qed.

Lemma keeps_py_assert c msg : keeps_identity (py_assert c msg).
Proof. destruct c; intros st; apply same_identity_refl. Qed.

Lemma keeps_called c : keeps_identity (called c).
Proof. intros st. split; reflexivity. Qed.

Lemma keeps_get_self : keeps_identity get_self.
Proof. intros st. apply same_identity_refl. Qed.

Lemma keeps_get_world : keeps_identity get_world.
Proof. intros st. apply same_identity_refl. Qed.

Lemma keeps_set_world f : keeps_identity (set_world f).
Proof. intros st. split; reflexivity. Qed.

Lemma keeps_set_heap f : keeps_identity (set_heap f).
Proof. intros st. split; reflexivity. Qed.

Lemma keeps_new_model m : keeps_identity (new_model m).
Proof. intros st. split; reflexivity. Qed.

Lemma keeps_deref l : keeps_identity (deref l).
Proof. intros st. unfold deref. destruct (heap st !! l); apply same_identity_refl. Qed.

Lemma keeps_set_self (f : Train -> Train) :
  (forall d, model_version (f d) = model_version d /\
             best_validation_loss (f d) = best_validation_loss d) ->
  keeps_identity (set_self f).
Proof. intros H st. apply H. Qed.

#[local] Hint Resolve keeps_ret keeps_raise keeps_lift keeps_py_assert keeps_called
  keeps_get_self keeps_get_world keeps_set_world keeps_set_heap keeps_new_model
  keeps_deref : frame.

Ltac frame_step :=
  first
    [ apply keeps_bind; [| intros ?]
    | apply keeps_set_self; intros ?; split; reflexivity
    | solve [auto with frame]
    | match goal with |- keeps_identity (match ?x with _ => _ end) => destruct x end
    | match goal with |- keeps_identity (if ?x then _ else _) => destruct x end ].

Lemma keeps_getattr {A} name (field : Train -> option A) :
  keeps_identity (getattr name field).
Proof. unfold getattr. repeat frame_step. Qed.

Lemma keeps_add_to_log message : keeps_identity (add_to_log message).
Proof. unfold add_to_log. repeat frame_step. Qed.

#[local] Hint Resolve keeps_getattr keeps_add_to_log : frame.

Lemma keeps_dataset_method c method : keeps_identity (dataset_method c method).
Proof. unfold dataset_method. repeat frame_step. Qed.

#[local] Hint Resolve keeps_dataset_method : frame.

Lemma keeps_load_model_configuration : keeps_identity load_model_configuration.
Proof. unfold load_model_configuration, getcwd, load_json_file. repeat frame_step. Qed.

Lemma keeps_load_dataset : keeps_identity load_dataset.
Proof. unfold load_dataset. repeat frame_step. Qed.

Lemma keeps_load_model mode : keeps_identity (load_model mode).
Proof. unfold load_model, latest_checkpoint, restore. repeat frame_step. Qed.

Lemma keeps_generate_model_summary_and_plot plot :
  keeps_identity (generate_model_summary_and_plot plot).
Proof.
  unfold generate_model_summary_and_plot, check_directory_path_existence, plot_model.
  repeat frame_step.
Qed.

(** C10: [__init__] leaves [best_validation_loss] at [None], and each of
    the four methods, whether it returns or raises, leaves
    [self.model_version] and [self.best_validation_loss] as they were. *)
Theorem identity_attributes_frame :
  (forall v d, Train_init v = inr d -> best_validation_loss d = PyNone) /\
  (forall st, same_identity st (snd (load_model_configuration st))) /\
  (forall st, same_identity st (snd (load_dataset st))) /\
  (forall mode st, same_identity st (snd (load_model mode st))) /\
  (forall plot st, same_identity st (snd (generate_model_summary_and_plot plot st))).
Proof.
  split; [| split; [| split; [| split]]].
  - intros v d H. destruct v; inversion H. reflexivity.
  - apply keeps_load_model_configuration.
  - apply keeps_load_dataset.
  - intros mode. apply keeps_load_model.
  - intros plot. apply keeps_generate_model_summary_and_plot.
Qed.

(** *** Failures of the collaborators *)

Ltac run_dataset :=
  unfold load_dataset, dataset_method, getattr, lift, bind, called, get_self, get_world,
    set_self, ret, raise; simpl.

(** X4: when the constructor of [Dataset] raises, [load_dataset] raises the
    same exception; [self.dataset] is not assigned and no method of the
    dataset is called. *)
Theorem load_dataset_constructor_raises (st : State) configuration (e : exn) :
  model_configuration (self st) = Some configuration ->
  co_Dataset configuration = inl e ->
  load_dataset st =
    (inl e,
     {| self := self st; heap := heap st; world := world st;
        calls := calls st ++ [Call_Dataset configuration] |}).
Proof.
  intros Hc Hd. destruct st as [d h w c]. simpl in *.
  run_dataset. rewrite Hc. simpl. rewrite Hd. reflexivity.
Qed.

(** X6: when [split_dataset] raises after [load_data] returned,
    [load_dataset] raises the same exception, [shuffle_slice_dataset] is not
    called, and [self.dataset] is the object as the two methods left it. *)
Theorem load_dataset_split_raises (st : State) configuration (ds0 : DatasetObj) (e : exn) :
  model_configuration (self st) = Some configuration ->
  co_Dataset configuration = inr ds0 ->
  let r1 := co_load_data ds0 (world st) in
  let r2 := co_split_dataset (snd r1) (world st) in
  fst r1 = None ->
  fst r2 = Some e ->
  load_dataset st =
    (inl e,
     {| self := set_dataset (snd r2) (set_dataset (snd r1) (set_dataset ds0 (self st)));
        heap := heap st;
        world := world st;
        calls := calls st ++
                 [Call_Dataset configuration; Call_load_data; Call_split_dataset] |}).
Proof.
  intros Hc Hd r1 r2 H1 H2. subst r1 r2. destruct st as [d h w c]. simpl in *.
  run_dataset. rewrite Hc. simpl. rewrite Hd. simpl. rewrite H1. simpl.
  rewrite H2. simpl. repeat rewrite <- app_assoc. reflexivity.
Qed.

Lemma valid_mode_in_strs (mode : string) :
  mode = "train" \/ mode = "predict" ->
  in_strs (PyStr mode) ["train"; "predict"] = true.
Proof. intros H. apply in_strs_modes. destruct H as [-> | ->]; auto. Qed.

(** X7: with a valid mode, when the constructor of [Model] raises,
    [load_model] raises the same exception and assigns nothing: no model
    object is created, and optimizer, manager and log are as before. *)
Theorem load_model_constructor_raises (st : State) configuration (mode : string) (e : exn) :
  mode = "train" \/ mode = "predict" ->
  model_configuration (self st) = Some configuration ->
  co_Model configuration = inl e ->
  load_model (PyStr mode) st =
    (inl e,
     {| self := self st; heap := heap st; world := world st;
        calls := calls st ++ [Call_Model configuration] |}).
Proof.
  intros Hmode Hc Hm. apply valid_mode_in_strs in Hmode.
  destruct st as [d h w c]. simpl in *.
  run_driver. unfold in_strs in Hmode. simpl in Hmode. rewrite Hmode. simpl.
  rewrite Hc. simpl. rewrite Hm. reflexivity.
Qed.

(** X8: with a valid mode, when the optimizer's constructor raises,
    [load_model] raises the same exception after it has assigned
    [self.model]: the new model object stays, while [self.optimizer],
    [self.checkpoint_directory_path] and [self.manager] are not assigned and
    nothing is logged. *)
Theorem load_model_optimizer_raises (st : State) configuration learning_rate m
    (mode : string) (e : exn) :
  mode = "train" \/ mode = "predict" ->
  model_configuration (self st) = Some configuration ->
  co_Model configuration = inr m ->
  subscripts configuration learning_rate_path = inr learning_rate ->
  co_Adam learning_rate = inl e ->
  load_model (PyStr mode) st =
    (inl e,
     {| self := set_model (fresh (dom (heap st))) (self st);
        heap := <[ fresh (dom (heap st)) := m ]> (heap st);
        world := world st;
        calls := calls st ++ [Call_Model configuration; Call_Adam learning_rate] |}).
Proof.
  intros Hmode Hc Hm Hlr Ho. apply valid_mode_in_strs in Hmode.
  destruct st as [d h w c]. simpl in *.
  run_driver. unfold in_strs in Hmode. simpl in Hmode. rewrite Hmode. simpl.
  rewrite Hc, Hm. simpl. rewrite Hc, Hlr. simpl. rewrite Ho. simpl.
  rewrite <- app_assoc. reflexivity.
Qed.

(** X9: with a valid mode and the model built, when a value on the way to
    model.optimizer.learning_rate is not a mapping, [load_model] fails with
    [TypeError] while it evaluates the argument of the optimizer's
    constructor, which is not called. *)
Theorem load_model_learning_rate_not_mapping (st : State) configuration m (mode : string) :
  mode = "train" \/ mode = "predict" ->
  model_configuration (self st) = Some configuration ->
  co_Model configuration = inr m ->
  nested_mapping configuration learning_rate_path = false ->
  exists msg,
    load_model (PyStr mode) st =
      (inl (TypeError msg),
       {| self := set_model (fresh (dom (heap st))) (self st);
          heap := <[ fresh (dom (heap st)) := m ]> (heap st);
          world := world st;
          calls := calls st ++ [Call_Model configuration] |}).
Proof.
  intros Hmode Hc Hm Hn. apply valid_mode_in_strs in Hmode.
  destruct (subscripts_not_mapping _ _ Hn) as (msg & Hs). exists msg.
  destruct st as [d h w c]. simpl in *.
  run_driver. unfold in_strs in Hmode. simpl in Hmode. rewrite Hmode. simpl.
  rewrite Hc, Hm. simpl. rewrite Hc. simpl.
  unfold learning_rate_path in Hs. simpl in Hs. rewrite Hs. reflexivity.
Qed.

(** X10: when [build_graph] raises, [generate_model_summary_and_plot] raises
    the same exception before anything is logged: the reports directory is
    not created, [self.reports_directory_path] is not assigned and no file
    is written, whatever [plot] is. *)
Theorem summary_build_graph_raises (st : State) (l : loc) (m : ModelObj) (plot : pyval)
    (e : exn) :
  model (self st) = Some l ->
  heap st !! l = Some m ->
  co_build_graph m = inl e ->
  generate_model_summary_and_plot plot st =
    (inl e,
     {| self := self st; heap := heap st; world := world st;
        calls := calls st ++ [Call_build_graph] |}).
Proof.
  intros Hl Hm Hg. destruct st as [d h w c]. simpl in *.
  run_report. rewrite Hl. simpl. rewrite Hm. simpl. rewrite Hg. reflexivity.
Qed.

(** *** What a method leaves alone, whatever its outcome *)

Ltac case_outcomes :=
  repeat (simpl;
          match goal with
          | |- context [match ?x with Some _ => _ | None => _ end] => destruct x eqn:?
          | |- context [match ?x with inl _ => _ | inr _ => _ end] => destruct x eqn:?
          | |- context [if ?x then _ else _] => destruct x eqn:?
          end);
  simpl.

(** X11: [load_model] writes to the world only when it completes: if it
    raises, the world (configuration store, checkpoint store, directories,
    files, log) is as before; if it returns, the world differs by the two
    log lines only. *)
Theorem load_model_world (mode : pyval) (st : State) :
  match fst (load_model mode st) with
  | inl _ => world (snd (load_model mode st)) = world st
  | inr _ =>
      world (snd (load_model mode st)) =
        append_log "" (append_log model_loaded_message (world st))
  end.
Proof.
  destruct st as [d h w c].
  destruct (load_model mode _) as [r st'] eqn:Hrun. simpl. revert Hrun.
  run_driver. case_outcomes; intros [= <- <-]; reflexivity.
Qed.

(** X12: [load_dataset] assigns [self.dataset] and nothing else: whatever
    its outcome, the model objects and the world are as before and [self]
    is as before or differs in [dataset] only. *)
Theorem load_dataset_frame (st : State) :
  heap (snd (load_dataset st)) = heap st /\
  world (snd (load_dataset st)) = world st /\
  (self (snd (load_dataset st)) = self st \/
   exists ds, self (snd (load_dataset st)) = set_dataset ds (self st)).
Proof.
  destruct st as [d h w c].
  destruct (load_dataset _) as [r st'] eqn:Hrun. simpl. revert Hrun.
  run_dataset. case_outcomes; intros [= <- <-]; simpl;
    (split; [reflexivity | split; [reflexivity |]]);
    first [left; reflexivity | right; eexists; reflexivity
          | left; f_equal; congruence | right; eexists; f_equal; congruence].
Qed.

(** X13: [load_model] never changes a model object that existed before the
    call, whatever its outcome: the object it builds is a new one, and a
    restore writes into the new one only.  The attributes
    [home_directory_path], [model_configuration], [dataset] and
    [reports_directory_path] are as before. *)
Theorem load_model_keeps_objects (mode : pyval) (st : State) (l : loc) (m : ModelObj) :
  heap st !! l = Some m ->
  heap (snd (load_model mode st)) !! l = Some m /\
  home_directory_path (self (snd (load_model mode st))) = home_directory_path (self st) /\
  model_configuration (self (snd (load_model mode st))) = model_configuration (self st) /\
  dataset (self (snd (load_model mode st))) = dataset (self st) /\
  reports_directory_path (self (snd (load_model mode st)))
    = reports_directory_path (self st).
Proof.
  intros Hl. destruct st as [d h w c]. simpl in Hl.
  assert (Hfresh : fresh (dom h) <> l).
  { intros Heq. apply (is_fresh (dom h)). rewrite Heq.
    apply elem_of_dom. eexists. exact Hl. }
  destruct (load_model mode _) as [r st'] eqn:Hrun. simpl. revert Hrun.
  run_driver. case_outcomes; intros [= <- <-]; simpl;
    (split; [| repeat split; first [reflexivity | congruence]]);
    try exact Hl;
    try rewrite lookup_alter_ne by exact Hfresh;
    rewrite lookup_insert_ne by exact Hfresh; exact Hl.
Qed.

(** X14: [generate_model_summary_and_plot] does not touch the model: whatever
    its outcome and whatever [plot] is, the model objects, the configuration
    store and the checkpoint store are as before, and [self] is as before or
    differs in [reports_directory_path] only. *)
Theorem summary_and_plot_frame (plot : pyval) (st : State) :
  let st' := snd (generate_model_summary_and_plot plot st) in
  heap st' = heap st /\
  config_store (world st') = config_store (world st) /\
  ckpt_index (world st') = ckpt_index (world st) /\
  ckpt_data (world st') = ckpt_data (world st) /\
  (self st' = self st \/
   self st' =
     set_reports_directory_path
       (reports_directory (cwd (world st)) (model_version (self st))) (self st)).
Proof.
  destruct st as [d h w c].
  destruct (generate_model_summary_and_plot plot _) as [r st'] eqn:Hrun. simpl.
  revert Hrun.
  run_report. case_outcomes; intros [= <- <-]; simpl;
    repeat (split; [reflexivity |]);
    first [left; reflexivity | right; reflexivity].
Qed.

(** *** The methods in sequence *)

Lemma load_model_configuration_run (st : State) document :
  config_store (world st)
    !! (configs_directory (cwd (world st)), "v" ++ model_version (self st)) = Some document ->
  exists st1,
    load_model_configuration st = (inr tt, st1) /\
    self st1 = set_model_configuration document
                 (set_home_directory_path (cwd (world st)) (self st)) /\
    heap st1 = heap st /\
    world st1 = world st /\
    calls st1 = (calls st ++
                 [Call_getcwd;
                  Call_load_json_file ("v" ++ model_version (self st))
                    (configs_directory (cwd (world st)))])%list.
Proof.
  intros H. destruct st as [d h w c]. simpl in *. eexists. split.
  - unfold load_model_configuration, load_json_file, getcwd, getattr, bind, called,
      get_self, get_world, set_self, ret, raise. simpl.
    unfold configs_directory in H. rewrite H. reflexivity.
  - simpl. rewrite <- app_assoc. repeat split; reflexivity.
Qed.

Lemma dataset_method_run (c : Call) method (st : State) (ds : DatasetObj) :
  dataset (self st) = Some ds ->
  fst (method ds (world st)) = None ->
  dataset_method c method st =
    (inr tt,
     {| self := set_dataset (snd (method ds (world st))) (self st);
        heap := heap st;
        world := world st;
        calls := calls st ++ [c] |}).
Proof.
  intros Hd Hm. destruct st as [d h w cs]. simpl in *.
  unfold dataset_method, getattr, bind, called, get_self, get_world, set_self, ret, raise.
  simpl. rewrite Hd. simpl. rewrite Hm. reflexivity.
Qed.

Lemma load_dataset_run (st : State) configuration (ds0 : DatasetObj) :
  model_configuration (self st) = Some configuration ->
  co_Dataset configuration = inr ds0 ->
  let r1 := co_load_data ds0 (world st) in
  let r2 := co_split_dataset (snd r1) (world st) in
  let r3 := co_shuffle_slice_dataset (snd r2) (world st) in
  fst r1 = None -> fst r2 = None -> fst r3 = None ->
  exists st2,
    load_dataset st = (inr tt, st2) /\
    self st2 = set_dataset (snd r3) (self st) /\
    heap st2 = heap st /\
    world st2 = world st /\
    calls st2 = (calls st ++
                 [Call_Dataset configuration; Call_load_data; Call_split_dataset;
                  Call_shuffle_slice_dataset])%list.
Proof.
  intros Hc Hd r1 r2 r3 H1 H2 H3. eexists. split.
  - unfold load_dataset.
    erewrite bind_inr by (apply getattr_some; exact Hc).
    erewrite bind_inr by reflexivity.
    unfold lift. rewrite Hd.
    erewrite bind_inr by reflexivity.
    erewrite bind_inr by reflexivity.
    erewrite bind_inr by (apply dataset_method_run; [reflexivity | exact H1]).
    erewrite bind_inr by (apply dataset_method_run; [reflexivity | exact H2]).
    apply dataset_method_run; [reflexivity | exact H3].
  - simpl. repeat rewrite <- app_assoc. repeat split; reflexivity.
Qed.

(** X15: configuration, dataset and model in sequence.  When the store holds
    the configuration of the version, the dataset can be built and prepared,
    and the model and the optimizer can be built from that configuration,
    the three methods run to the end: [load_dataset] and
    [load_model("train")] find the attributes their predecessors assigned,
    the manager is bound to the checkpoint directory of the version under
    the working directory, and no checkpoint is looked up or restored. *)
Theorem prepare_for_training_runs (st : State) document (ds0 : DatasetObj)
    learning_rate m o :
  config_store (world st)
    !! (configs_directory (cwd (world st)), "v" ++ model_version (self st)) = Some document ->
  co_Dataset document = inr ds0 ->
  let r1 := co_load_data ds0 (world st) in
  let r2 := co_split_dataset (snd r1) (world st) in
  let r3 := co_shuffle_slice_dataset (snd r2) (world st) in
  fst r1 = None -> fst r2 = None -> fst r3 = None ->
  co_Model document = inr m ->
  subscripts document learning_rate_path = inr learning_rate ->
  co_Adam learning_rate = inr o ->
  let l := fresh (dom (heap st)) in
  let directory := checkpoints_directory (cwd (world st)) (model_version (self st)) in
  exists st',
    prepare_for_training st = (inr tt, st') /\
    model_configuration (self st') = Some document /\
    dataset (self st') = Some (snd r3) /\
    model (self st') = Some l /\
    heap st' !! l = Some m /\
    optimizer (self st') = Some o /\
    manager (self st') =
      Some {| mgr_checkpoint := {| ck_model := l |};
              mgr_directory := directory;
              mgr_max_to_keep := 3 |} /\
    calls st' =
      (calls st ++
       [Call_getcwd;
        Call_load_json_file ("v" ++ model_version (self st))
          (configs_directory (cwd (world st)));
        Call_Dataset document; Call_load_data; Call_split_dataset;
        Call_shuffle_slice_dataset;
        Call_Model document; Call_Adam learning_rate; Call_Checkpoint l;
        Call_CheckpointManager directory 3;
        Call_add_to_log model_loaded_message; Call_add_to_log ""])%list.
Proof.
  intros Hdoc Hd r1 r2 r3 H1 H2 H3 Hm Hlr Ho l directory.
  destruct (load_model_configuration_run st document Hdoc)
    as (st1 & Hrun1 & Hself1 & Hheap1 & Hworld1 & Hcalls1).
  assert (Hc1 : model_configuration (self st1) = Some document)
    by (rewrite Hself1; reflexivity).
  destruct (load_dataset_run st1 document ds0 Hc1 Hd) as
    (st2 & Hrun2 & Hself2 & Hheap2 & Hworld2 & Hcalls2);
    try (rewrite Hworld1; assumption).
  assert (Hc2 : model_configuration (self st2) = Some document)
    by (rewrite Hself2, Hself1; reflexivity).
  assert (Hh2 : home_directory_path (self st2) = Some (cwd (world st)))
    by (rewrite Hself2, Hself1; reflexivity).
  pose proof (load_model_train_run st2 _ _ _ _ _ Hh2 Hc2 Hm Hlr Ho) as Hrun3.
  eexists. split.
  - unfold prepare_for_training.
    erewrite bind_inr by exact Hrun1.
    erewrite bind_inr by exact Hrun2.
    exact Hrun3.
  - subst l directory r1 r2 r3. simpl.
    rewrite Hself2, Hself1, Hheap2, Hheap1, Hcalls2, Hcalls1, Hworld1. simpl.
    repeat rewrite <- app_assoc.
    repeat split; try reflexivity. apply lookup_insert_eq.
Qed.

(** X16: configuration and model for prediction in sequence.  When the store
    holds the configuration of the version and the model and the optimizer
    can be built from it, [load_model("predict")] looks up the checkpoint
    directory of the version under the working directory and the model ends
    with the parameters of the most recent snapshot retained there. *)
Theorem prepare_for_prediction_restores (st : State) document learning_rate m o
    (older : list string) (path : string) (ps : Params) :
  config_store (world st)
    !! (configs_directory (cwd (world st)), "v" ++ model_version (self st)) = Some document ->
  co_Model document = inr m ->
  subscripts document learning_rate_path = inr learning_rate ->
  co_Adam learning_rate = inr o ->
  let l := fresh (dom (heap st)) in
  let directory := checkpoints_directory (cwd (world st)) (model_version (self st)) in
  snapshots (world st) directory = (older ++ [path])%list ->
  ckpt_data (world st) !! path = Some ps ->
  exists st',
    prepare_for_prediction st = (inr tt, st') /\
    model (self st') = Some l /\
    heap st' !! l = Some (with_params ps m) /\
    calls st' =
      (calls st ++
       [Call_getcwd;
        Call_load_json_file ("v" ++ model_version (self st))
          (configs_directory (cwd (world st)));
        Call_Model document; Call_Adam learning_rate; Call_Checkpoint l;
        Call_CheckpointManager directory 3;
        Call_latest_checkpoint directory;
        Call_restore (Some path);
        Call_add_to_log model_loaded_message; Call_add_to_log ""])%list.
Proof.
  intros Hdoc Hm Hlr Ho l directory Hs Hps.
  destruct (load_model_configuration_run st document Hdoc)
    as (st1 & Hrun1 & Hself1 & Hheap1 & Hworld1 & Hcalls1).
  assert (Hc1 : model_configuration (self st1) = Some document)
    by (rewrite Hself1; reflexivity).
  assert (Hh1 : home_directory_path (self st1) = Some (cwd (world st)))
    by (rewrite Hself1; reflexivity).
  assert (Hv1 : model_version (self st1) = model_version (self st))
    by (rewrite Hself1; reflexivity).
  pose proof (load_model_predict_run st1 _ _ _ _ _ Hh1 Hc1 Hm Hlr Ho (with_params ps m))
    as Hrun2.
  simpl in Hrun2. rewrite Hv1, Hworld1, Hheap1, Hcalls1 in Hrun2.
  fold l directory in Hrun2. rewrite Hs, last_snoc in Hrun2.
  eexists. split.
  - unfold prepare_for_prediction.
    erewrite bind_inr by exact Hrun1.
    apply Hrun2. exists ps. split; [exact Hps | reflexivity].
  - simpl. rewrite Hheap1. fold l. repeat rewrite <- app_assoc.
    repeat split; try reflexivity. apply lookup_insert_eq.
Qed.

(** *** Subscripts of the configuration *)

(** X17: the chain of subscripts returns a value exactly when the field is
    present, fails with [KeyError] exactly when the document is a nested
    mapping along the path without the field, and with [TypeError] exactly
    when a value on the way is not a mapping. *)
Theorem subscripts_outcome (v : pyval) (path : list string) :
  (has_field v path = true <-> exists x, subscripts v path = inr x) /\
  (nested_mapping v path = true /\ has_field v path = false
     <-> exists k, subscripts v path = inl (KeyError k)) /\
  (nested_mapping v path = false <-> exists msg, subscripts v path = inl (TypeError msg)).
Proof.
  assert (Hyes : forall (P Q : Prop), P -> Q -> (P <-> Q)) by (intros; split; auto).
  assert (Hno : forall (P Q : Prop), ~ P -> ~ Q -> (P <-> Q))
    by (intros P Q HP HQ; split; intros H; [destruct (HP H) | destruct (HQ H)]).
  revert v. induction path as [| k ks IH]; intros v.
  - simpl. split; [| split].
    + apply Hyes; [reflexivity | eexists; reflexivity].
    + apply Hno; [intros [_ H]; discriminate H | intros [x H]; discriminate H].
    + apply Hno; [intros H; discriminate H | intros [x H]; discriminate H].
  - assert (Htype : forall msg,
              (false = true <-> exists x, @inl exn pyval (TypeError msg) = inr x) /\
              (false = true /\ false = false
                 <-> exists k', @inl exn pyval (TypeError msg) = inl (KeyError k')) /\
              (false = false
                 <-> exists msg', @inl exn pyval (TypeError msg) = inl (TypeError msg'))).
    { intros msg. split; [| split].
      - apply Hno; [intros H; discriminate H | intros [x H]; discriminate H].
      - apply Hno; [intros [H _]; discriminate H | intros [x H]; discriminate H].
      - apply Hyes; [reflexivity | eexists; reflexivity]. }
    destruct v; simpl; try apply Htype.
    destruct (d !! k) as [v' |] eqn:Hk; simpl.
    + apply IH.
    + split; [| split].
      * apply Hno; [intros H; discriminate H | intros [x H]; discriminate H].
      * apply Hyes; [split; reflexivity | eexists; reflexivity].
      * apply Hno; [intros H; discriminate H | intros [x H]; discriminate H].
Qed.

End Properties.

(** * The properties on the reference collaborators *)

#[local] Existing Instance ref_domain.
#[local] Existing Instance ref_collaborators.

Lemma init_requires_str_witness :
  Train_init (PyInt 1) = inl (AssertionError "Variable model_version of type 'str'.") /\
  PyStr "1" = PyStr (model_version ref_driver).
Proof.
  split.
  - apply (proj1 (init_requires_str (PyInt 1))). reflexivity.
  - apply (proj2 (init_requires_str (PyStr "1")) ref_driver). reflexivity.
Defined.

(** The driver built from the empty string exists and its version is empty:
    the requirement that a constructed driver has a non-empty version does
    not hold of the code. *)
Lemma init_nonempty_counterexample :
  exists d : @Train ref_domain,
    Train_init (PyStr "") = inr d /\ ~ (model_version d <> "").
Proof.
  eexists. split; [reflexivity |]. simpl. intros H. apply H. reflexivity.
Qed.

Lemma load_model_rejects_mode_witness :
  load_model (PyStr "evaluate") (ref_state (ref_driver_configured ref_configuration) ref_world)
  = (inl (AssertionError mode_value_message),
     ref_state (ref_driver_configured ref_configuration) ref_world).
Proof.
  apply (load_model_rejects_mode "evaluate"); discriminate.
Defined.

Lemma out_of_order_attribute_error_witness :
  load_dataset (ref_state ref_driver ref_world)
    = (inl (AttributeError "model_configuration"), ref_state ref_driver ref_world) /\
  load_model (PyStr "train") (ref_state ref_driver ref_world)
    = (inl (AttributeError "model_configuration"), ref_state ref_driver ref_world) /\
  generate_model_summary_and_plot (PyBool true) (ref_state ref_driver ref_world)
    = (inl (AttributeError "model"), ref_state ref_driver ref_world).
Proof.
  pose proof (out_of_order_attribute_error (ref_state ref_driver ref_world)) as [Hc Hm].
  specialize (Hc eq_refl). specialize (Hm eq_refl).
  destruct Hc as [Hd Hl].
  split; [exact Hd |]. split; [apply Hl; left; reflexivity | apply Hm].
Defined.

Lemma load_model_configuration_loads_witness :
  exists st',
    load_model_configuration (ref_state ref_driver ref_world) = (inr tt, st') /\
    model_configuration (self st') = Some ref_configuration /\
    home_directory_path (self st') = Some "/work" /\
    calls st' =
      [Call_getcwd;
       Call_load_json_file "v1" "/work/configs/models/digit_recognizer"].
Proof.
  destruct (load_model_configuration_loads (ref_state ref_driver ref_world)
              ref_configuration)
    as (st' & Hrun & Hconfiguration & Hhome & _ & _ & _ & _ & _ & _ & _ & _ & _ & _ & Hcalls).
  - reflexivity.
  - exists st'. split; [exact Hrun |]. split; [exact Hconfiguration |].
    split; [exact Hhome | exact Hcalls].
Defined.

Lemma load_model_train_manager_witness :
  exists st',
    load_model (PyStr "train")
      (ref_state (ref_driver_configured ref_configuration) ref_world_snapshots)
      = (inr tt, st') /\
    manager (self st') =
      Some {| mgr_checkpoint := {| ck_model := 0 |};
              mgr_directory := "/work/models/digit_recognizer/v1/checkpoints";
              mgr_max_to_keep := 3 |} /\
    heap st' !! 0 = Some (ref_model ref_configuration [0; 0]%Z).
Proof.
  destruct (load_model_train_manager
              (ref_state (ref_driver_configured ref_configuration) ref_world_snapshots)
              ref_configuration (PyFloat 1 (-3))
              (ref_model ref_configuration [0; 0]%Z)
              (PyFloat 1 (-3)))
    as (st' & Hrun & Hmgr & _ & Hheap & _).
  - split; reflexivity.
  - reflexivity.
  - reflexivity.
  - reflexivity.
  - exists st'. split; [exact Hrun |]. split; [exact Hmgr | exact Hheap].
Defined.

Lemma load_model_predict_restores_witness :
  (exists st',
     load_model (PyStr "predict")
       (ref_state (ref_driver_configured ref_configuration) ref_world)
       = (inr tt, st') /\
     heap st' !! 0 = Some (ref_model ref_configuration [0; 0]%Z)) /\
  (exists st',
     load_model (PyStr "predict")
       (ref_state (ref_driver_configured ref_configuration) ref_world_snapshots)
       = (inr tt, st') /\
     heap st' !! 0 = Some (ref_model ref_configuration [30; 30]%Z)).
Proof.
  split.
  - destruct (load_model_predict_restores
                (ref_state (ref_driver_configured ref_configuration) ref_world)
                ref_configuration (PyFloat 1 (-3))
                (ref_model ref_configuration [0; 0]%Z)
                (PyFloat 1 (-3)))
      as [Hempty _].
    + split; reflexivity.
    + reflexivity.
    + reflexivity.
    + reflexivity.
    + destruct (Hempty eq_refl) as (st' & Hrun & _ & Hheap).
      exists st'. split; [exact Hrun | exact Hheap].
  - destruct (load_model_predict_restores
                (ref_state (ref_driver_configured ref_configuration) ref_world_snapshots)
                ref_configuration (PyFloat 1 (-3))
                (ref_model ref_configuration [0; 0]%Z)
                (PyFloat 1 (-3)))
      as [_ Hsome].
    + split; reflexivity.
    + reflexivity.
    + reflexivity.
    + reflexivity.
    + destruct (Hsome [ref_checkpoints ++ "/ckpt-10"; ref_checkpoints ++ "/ckpt-20"]
                  (ref_checkpoints ++ "/ckpt-30") [30; 30]%Z eq_refl eq_refl)
        as (st' & Hrun & _ & Hheap).
      exists st'. split; [exact Hrun | exact Hheap].
Defined.

Lemma load_model_missing_learning_rate_witness :
  exists st',
    load_model (PyStr "predict")
      (ref_state (ref_driver_configured ref_configuration_no_rate) ref_world)
      = (inl (KeyError "learning_rate"), st') /\
    optimizer (self st') = None.
Proof.
  destruct (load_model_missing_learning_rate
              (ref_state (ref_driver_configured ref_configuration_no_rate) ref_world)
              ref_configuration_no_rate
              (ref_model ref_configuration_no_rate [0; 0]%Z)
              "predict")
    as (k & st' & Hk & Hrun & Ho & _).
  - reflexivity.
  - right. reflexivity.
  - reflexivity.
  - reflexivity.
  - reflexivity.
  - exists st'. split; [| exact Ho].
    assert (Hr : fst (load_model (PyStr "predict")
                   (ref_state (ref_driver_configured ref_configuration_no_rate) ref_world))
                 = inl (KeyError "learning_rate")) by reflexivity.
    rewrite Hrun in Hr. simpl in Hr. rewrite Hrun. rewrite Hr. reflexivity.
Defined.

(** In the configuration whose optimizer entry is the number 5 the field
    model.optimizer.learning_rate is absent, the model is built, and
    [load_model] fails with [TypeError]: the failure is not the one of a
    missing key. *)
Lemma load_model_missing_learning_rate_counterexample :
  has_field ref_configuration_flat learning_rate_path = false /\
  co_Model ref_configuration_flat = inr (ref_model ref_configuration_flat [0; 0]%Z) /\
  fst (load_model (PyStr "train")
         (ref_state (ref_driver_configured ref_configuration_flat) ref_world))
    = inl (TypeError "object is not subscriptable") /\
  ~ (exists k,
       fst (load_model (PyStr "train")
              (ref_state (ref_driver_configured ref_configuration_flat) ref_world))
         = inl (KeyError k)).
Proof.
  assert (Hrun : fst (load_model (PyStr "train")
                        (ref_state (ref_driver_configured ref_configuration_flat) ref_world))
                 = inl (TypeError "object is not subscriptable")) by reflexivity.
  split; [reflexivity |]. split; [reflexivity |]. split; [exact Hrun |].
  intros [k Hk]. rewrite Hrun in Hk. discriminate Hk.
Qed.


Lemma identity_attributes_frame_witness :
  best_validation_loss ref_driver = PyNone /\
  same_identity (ref_state (ref_driver_configured ref_configuration) ref_world_snapshots)
    (snd (load_model (PyStr "predict")
            (ref_state (ref_driver_configured ref_configuration) ref_world_snapshots))).
Proof.
  destruct (@identity_attributes_frame ref_domain ref_collaborators)
    as (Hinit & _ & _ & Hmodel & _).
  split.
  - apply (Hinit (PyStr "1")). reflexivity.
  - apply Hmodel.
Defined.

Lemma load_model_rejects_type_witness :
  load_model (PyInt 1) (ref_state (ref_driver_configured ref_configuration) ref_world)
  = (inl (AssertionError mode_type_message),
     ref_state (ref_driver_configured ref_configuration) ref_world).
Proof. apply (load_model_rejects_type (PyInt 1)). reflexivity. Defined.

Lemma load_model_configuration_not_found_witness :
  exists st',
    load_model_configuration
      (ref_state (@Build_Train ref_domain "2" PyNone None None None None None None None None)
         ref_world)
    = (inl (ConfigNotFound "v2" "/work/configs/models/digit_recognizer"), st') /\
    home_directory_path (self st') = Some "/work" /\
    model_configuration (self st') = None.
Proof.
  eexists. split.
  - apply (load_model_configuration_not_found
             (ref_state (@Build_Train ref_domain "2" PyNone None None None None None None
                           None None) ref_world)).
    reflexivity.
  - split; reflexivity.
Defined.

Lemma load_dataset_runs_witness :
  exists st',
    load_dataset (ref_state (ref_driver_configured ref_configuration) ref_world)
      = (inr tt, st') /\
    dataset (self st') = Some ["load_data"; "split_dataset"; "shuffle_slice_dataset"].
Proof.
  eexists. split.
  - apply (load_dataset_runs
             (ref_state (ref_driver_configured ref_configuration) ref_world)
             ref_configuration []); reflexivity.
  - reflexivity.
Defined.

Lemma load_dataset_constructor_raises_witness :
  @load_dataset ref_domain strict_collaborators
    (ref_state (ref_driver_configured ref_configuration) ref_world)
  = (inl (KeyError "dataset"),
     {| self := ref_driver_configured ref_configuration;
        heap := ∅;
        world := ref_world;
        calls := [Call_Dataset ref_configuration] |}).
Proof.
  apply (@load_dataset_constructor_raises ref_domain strict_collaborators
           (ref_state (ref_driver_configured ref_configuration) ref_world)
           ref_configuration (KeyError "dataset")); reflexivity.
Defined.

Lemma load_dataset_propagates_witness :
  exists st',
    @load_dataset ref_domain strict_collaborators
      (ref_state (ref_driver_configured ref_configuration_full) ref_world)
    = (inl (CollaboratorError "missing source file"), st') /\
    calls st' = [Call_Dataset ref_configuration_full; Call_load_data].
Proof.
  destruct (@load_dataset_propagates ref_domain strict_collaborators
              (ref_state (ref_driver_configured ref_configuration_full) ref_world)
              ref_configuration_full [] (CollaboratorError "missing source file"))
    as (st' & Hrun & _ & Hcalls).
  - reflexivity.
  - reflexivity.
  - reflexivity.
  - exists st'. split; [exact Hrun | exact Hcalls].
Defined.

Lemma load_dataset_split_raises_witness :
  exists st',
    @load_dataset ref_domain strict_collaborators
      (ref_state (ref_driver_configured ref_configuration_full) ref_world_data)
    = (inl (CollaboratorError "empty dataset"), st') /\
    dataset (self st') = Some ["load_data"; "split_dataset (partial)"] /\
    calls st' = [Call_Dataset ref_configuration_full; Call_load_data; Call_split_dataset].
Proof.
  eexists. split.
  - apply (@load_dataset_split_raises ref_domain strict_collaborators
             (ref_state (ref_driver_configured ref_configuration_full) ref_world_data)
             ref_configuration_full [] (CollaboratorError "empty dataset"));
      reflexivity.
  - split; reflexivity.
Defined.

Lemma load_model_constructor_raises_witness :
  @load_model ref_domain strict_collaborators (PyStr "train")
    (ref_state (ref_driver_configured ref_configuration) ref_world)
  = (inl (KeyError "layers"),
     {| self := ref_driver_configured ref_configuration;
        heap := ∅;
        world := ref_world;
        calls := [Call_Model ref_configuration] |}).
Proof.
  apply (@load_model_constructor_raises ref_domain strict_collaborators
           (ref_state (ref_driver_configured ref_configuration) ref_world)
           ref_configuration "train" (KeyError "layers"));
    [left; reflexivity | reflexivity | reflexivity].
Defined.

Lemma load_model_optimizer_raises_witness :
  exists st',
    @load_model ref_domain strict_collaborators (PyStr "predict")
      (ref_state (ref_driver_configured ref_configuration_text_rate) ref_world)
    = (inl (CollaboratorError "learning_rate is not a number"), st') /\
    model (self st') = Some 0 /\
    optimizer (self st') = None /\
    manager (self st') = None /\
    log (world st') = [].
Proof.
  eexists. split.
  - apply (@load_model_optimizer_raises ref_domain strict_collaborators
             (ref_state (ref_driver_configured ref_configuration_text_rate) ref_world)
             ref_configuration_text_rate (PyStr "fast")
             (ref_model ref_configuration_text_rate [0; 0]%Z) "predict"
             (CollaboratorError "learning_rate is not a number"));
      [right; reflexivity | reflexivity ..].
  - repeat split; reflexivity.
Defined.

Lemma load_model_learning_rate_not_mapping_witness :
  exists msg st',
    load_model (PyStr "train")
      (ref_state (ref_driver_configured ref_configuration_flat) ref_world)
    = (inl (TypeError msg), st') /\
    calls st' = [Call_Model ref_configuration_flat].
Proof.
  destruct (load_model_learning_rate_not_mapping
              (ref_state (ref_driver_configured ref_configuration_flat) ref_world)
              ref_configuration_flat (ref_model ref_configuration_flat [0; 0]%Z) "train")
    as (msg & Hrun).
  - left. reflexivity.
  - reflexivity.
  - reflexivity.
  - reflexivity.
  - exists msg. eexists. split; [exact Hrun | reflexivity].
Defined.

Lemma summary_build_graph_raises_witness :
  @generate_model_summary_and_plot ref_domain strict_collaborators (PyBool true)
    ref_state_hollow
  = (inl (CollaboratorError "model has no layer"),
     {| self := ref_driver_loaded;
        heap := {[ 0 := ref_model ref_configuration [] ]};
        world := ref_world;
        calls := [Call_build_graph] |}).
Proof.
  apply (@summary_build_graph_raises ref_domain strict_collaborators ref_state_hollow 0
           (ref_model ref_configuration []) (PyBool true)
           (CollaboratorError "model has no layer")); reflexivity.
Defined.

Lemma load_model_keeps_objects_witness :
  heap (snd (load_model (PyStr "predict")
               {| self := ref_driver_loaded;
                  heap := {[ 0 := ref_model ref_configuration [0; 0]%Z ]};
                  world := ref_world_snapshots;
                  calls := [] |})) !! 0
  = Some (ref_model ref_configuration [0; 0]%Z).
Proof.
  apply (load_model_keeps_objects (PyStr "predict")
           {| self := ref_driver_loaded;
              heap := {[ 0 := ref_model ref_configuration [0; 0]%Z ]};
              world := ref_world_snapshots;
              calls := [] |} 0 (ref_model ref_configuration [0; 0]%Z)).
  reflexivity.
Defined.

Lemma prepare_for_training_runs_witness :
  exists st',
    prepare_for_training (ref_state ref_driver ref_world_snapshots) = (inr tt, st') /\
    dataset (self st') = Some ["load_data"; "split_dataset"; "shuffle_slice_dataset"] /\
    manager (self st') =
      Some {| mgr_checkpoint := {| ck_model := 0 |};
              mgr_directory := "/work/models/digit_recognizer/v1/checkpoints";
              mgr_max_to_keep := 3 |} /\
    heap st' !! 0 = Some (ref_model ref_configuration [0; 0]%Z).
Proof.
  destruct (prepare_for_training_runs (ref_state ref_driver ref_world_snapshots)
              ref_configuration [] (PyFloat 1 (-3))
              (ref_model ref_configuration [0; 0]%Z) (PyFloat 1 (-3)))
    as (st' & Hrun & _ & Hds & _ & Hheap & _ & Hmgr & _);
    try reflexivity.
  exists st'. split; [exact Hrun |]. split; [exact Hds |]. split; [exact Hmgr | exact Hheap].
Defined.

Lemma prepare_for_prediction_restores_witness :
  exists st',
    prepare_for_prediction (ref_state ref_driver ref_world_snapshots) = (inr tt, st') /\
    heap st' !! 0 = Some (ref_model ref_configuration [30; 30]%Z).
Proof.
  destruct (prepare_for_prediction_restores (ref_state ref_driver ref_world_snapshots)
              ref_configuration (PyFloat 1 (-3))
              (ref_model ref_configuration [0; 0]%Z) (PyFloat 1 (-3))
              [ref_checkpoints ++ "/ckpt-10"; ref_checkpoints ++ "/ckpt-20"]
              (ref_checkpoints ++ "/ckpt-30") [30; 30]%Z)
    as (st' & Hrun & _ & Hheap & _);
    try reflexivity.
  exists st'. split; [exact Hrun | exact Hheap].
Defined.
